(** * Xtrix-UI: the notification lifecycle of [UI/Components/Notification.tsx]

    A shallow embedding of the notification provider (the store behind
    [React.useState], [addNotification], [removeNotification] and the timers
    armed by [setTimeout]), of the [useNotification] hook and of what
    [NotificationContainer] and [NotificationItem] render, followed by the
    properties of the specification that can be settled on it.

    Conventions.
    - The component state is passed explicitly: a [State] holds the array kept
      by [useState] and the timers that [setTimeout] has armed and that have
      not fired yet.  [Date.now()] is an argument of [addNotification].
    - A [throw] is the [Throw] constructor of [Result].
    - Option fields are the values found at run time: a string (the TypeScript
      union types are erased) or absent ([None], JavaScript's [undefined]);
      [duration] is a JavaScript number, that is a binary64 float.
    - A [className] is kept as the list of arguments handed to [cfx] (the
      class-name joiner of the external package classifyx). *)

From Stdlib Require Import ZArith Floats.PrimFloat.
From stdpp Require Import base list strings pretty.

(** ** Data model *)

Record NotificationOptions := {
  duration : option float;
  variant : option string;
  type : option string;
  position : option string;
}.

Record Notification := {
  id : string;
  message : string;
  options : option NotificationOptions;
}.

(** A pending [setTimeout(() => removeNotification(id), delay)]. *)
Record Timer := {
  timer_id : string;
  timer_delay : float;
}.

Record State := {
  notifications : list Notification;
  timers : list Timer;
}.

(** [React.useState<Notification[]>([])], no timer armed. *)
Definition initial : State := {| notifications := []; timers := [] |}.

(** ** JavaScript values and operators used by the component *)

(** [ToBoolean] on a number: [+0], [-0] and [NaN] are falsy. *)
Definition truthy_number (x : float) : bool :=
  negb (PrimFloat.eqb x 0 || PrimFloat.is_nan x).

(** [ToBoolean] on an optional string: [undefined] and [""] are falsy. *)
Definition truthy_string (v : option string) : bool :=
  match v with
  | Some s => negb (bool_decide (s = ""))
  | None => false
  end.

(** [v || d] for an optional string [v] and a string literal [d]. *)
Definition or_default (v : option string) (d : string) : string :=
  match v with
  | Some s => if truthy_string v then s else d
  | None => d
  end.

(** What a property read [table[key]] on an object literal gives: the string
    stored under an own key, a member inherited from [Object.prototype], or
    [undefined]. *)
Inductive JsValue :=
  | JsString (s : string)
  | JsInherited (key : string)
  | JsUndefined.

Definition object_prototype_keys : list string :=
  [ "constructor"; "__defineGetter__"; "__defineSetter__"; "hasOwnProperty";
    "__lookupGetter__"; "__lookupSetter__"; "isPrototypeOf";
    "propertyIsEnumerable"; "toString"; "valueOf"; "__proto__";
    "toLocaleString" ].

Fixpoint own_property (table : list (string * string)) (key : string)
  : option string :=
  match table with
  | [] => None
  | (k, v) :: rest => if decide (k = key) then Some v else own_property rest key
  end.

Definition js_lookup (table : list (string * string)) (key : string) : JsValue :=
  match own_property table key with
  | Some v => JsString v
  | None =>
      if decide (key ∈ object_prototype_keys) then JsInherited key
      else JsUndefined
  end.

(** ** Exceptions *)

Inductive Exn := Error (msg : string).

Inductive Result (A : Type) :=
  | Ok (a : A)
  | Throw (e : Exn).
Arguments Ok {A} a.
Arguments Throw {A} e.

#[global] Instance Result_ret : MRet Result := λ A a, Ok a.
#[global] Instance Result_bind : MBind Result := λ A B f m,
  match m with
  | Ok a => f a
  | Throw e => Throw e
  end.

(** ** NotificationProvider: the dispatcher *)

(** [`notification_${Date.now()}`] *)
Definition notification_id (now : Z) : string :=
  "notification_" +:+ pretty now.

(** [if (options?.duration)]: the delay handed to [setTimeout], if any. *)
Definition arming_delay (options : option NotificationOptions) : option float :=
  match options ≫= duration with
  | Some d => if truthy_number d then Some d else None
  | None => None
  end.

Definition addNotification (now : Z) (message : string)
    (options : option NotificationOptions) (s : State) : State :=
  let id := notification_id now in
  let appended :=
    notifications s ++ [{| id := id; message := message; options := options |}] in
  match arming_delay options with
  | Some d =>
      {| notifications := appended;
         timers := timers s ++ [{| timer_id := id; timer_delay := d |}] |}
  | None =>
      {| notifications := appended; timers := timers s |}
  end.

Definition removeNotification (i : string) (s : State) : State :=
  {| notifications := filter (λ notif, notif.(id) ≠ i) (notifications s);
     timers := timers s |}.

(** The value of [NotificationContext.Provider]. *)
Record NotificationContextProps := {
  ctx_addNotification :
    Z → string → option NotificationOptions → State → State;
  ctx_removeNotification : string → State → State;
}.

Definition dispatcher : NotificationContextProps :=
  {| ctx_addNotification := addNotification;
     ctx_removeNotification := removeNotification |}.

(** [React.useContext(NotificationContext)] is [None] outside a provider
    (the context is created with [undefined]). *)
Definition useNotification (context : option NotificationContextProps)
  : Result NotificationContextProps :=
  match context with
  | None => Throw (Error "useNotification must be used within a NotificationProvider")
  | Some c => Ok c
  end.

(** ** What happens to a provider over time *)

Inductive Event :=
  | Add (now : Z) (message : string) (options : option NotificationOptions)
  | Remove (i : string)
  | Fire (k : nat).

(** [Add] is a call of [addNotification] when the clock reads [now]; [Remove]
    is a call of [removeNotification] (directly or by a close button);
    [Fire k] is the [k]-th pending timer running its callback. *)
Definition step (s : State) (e : Event) : State :=
  match e with
  | Add now message options => addNotification now message options s
  | Remove i => removeNotification i s
  | Fire k =>
      match timers s !! k with
      | Some t =>
          removeNotification (timer_id t)
            {| notifications := notifications s; timers := delete k (timers s) |}
      | None => s
      end
  end.

Definition run (s : State) (es : list Event) : State := foldl step s es.

(** The id an event hands to [removeNotification], if it removes at all. *)
Definition removal_target (s : State) (e : Event) : option string :=
  match e with
  | Add _ _ _ => None
  | Remove i => Some i
  | Fire k => timer_id <$> timers s !! k
  end.

Definition live_ids (s : State) : list string := id <$> notifications s.

(** A removal is completed when it finds its id in the set. *)
Definition completes_removal (s : State) (e : Event) : bool :=
  match removal_target s e with
  | Some i => bool_decide (i ∈ live_ids s)
  | None => false
  end.

Fixpoint completed_removals (s : State) (es : list Event) : nat :=
  match es with
  | [] => 0
  | e :: es' =>
      (if completes_removal s e then 1 else 0)
      + completed_removals (step s e) es'
  end.

Definition is_add (e : Event) : bool :=
  match e with Add _ _ _ => true | _ => false end.

Definition add_calls (es : list Event) : nat := length (filter is_add es).

(** The clock readings of the [addNotification] calls of a trace. *)
Definition add_clock (e : Event) : option Z :=
  match e with Add now _ _ => Some now | _ => None end.

Definition add_clocks (es : list Event) : list Z := omap add_clock es.

(** ** NotificationItem *)

Definition baseClasses : string :=
  "px-4 py-3 w-[20rem] rounded-xl border backdrop-blur flex items-center gap-2 relative".

Definition typeClasses : list (string * string) :=
  [ ("default", "bg-gray-200 text-black");
    ("success", "bg-green-500 text-white");
    ("error", "bg-red-500 text-white");
    ("warning", "bg-yellow-500 text-black") ].

Definition variantClasses : list (string * string) :=
  [ ("toast", "shadow-lg");
    ("sooner", "shadow-md");
    ("banner", "w-full") ].

(** The [div] a [NotificationItem] returns: its [className] arguments, the
    text of its [span], and the [onClick] of its close button. *)
Record ItemElement := {
  item_className : list JsValue;
  item_span : string;
  item_onClick : State → State;
}.

(** The JSX returned by [NotificationItem], once the hook has given [c]. *)
Definition item_div (c : NotificationContextProps)
    (i : string) (message : string) (options : option NotificationOptions)
  : ItemElement :=
  {| item_className :=
       [ JsString baseClasses;
         js_lookup typeClasses (or_default (options ≫= type) "default");
         js_lookup variantClasses (or_default (options ≫= variant) "toast") ];
     item_span := message;
     item_onClick := ctx_removeNotification c i |}.

Definition NotificationItem (context : option NotificationContextProps)
    (i : string) (message : string) (options : option NotificationOptions)
  : Result ItemElement :=
  c ← useNotification context;
  mret (item_div c i message options).

(** ** NotificationContainer *)

Definition positionClasses : list (string * string) :=
  [ ("top-right", "fixed top-5 right-5");
    ("top-left", "fixed top-5 left-5");
    ("bottom-right", "fixed bottom-5 right-5");
    ("bottom-left", "fixed bottom-5 left-5");
    ("center", "fixed top-5 left-1/2 -translate-x-1/2") ].

(** [n.options?.variant === v] *)
Definition has_variant (v : string) (n : Notification) : Prop :=
  options n ≫= variant = Some v.

#[global] Instance has_variant_dec v n : Decision (has_variant v n).
Proof. unfold has_variant. apply _. Defined.

Definition toasts (ns : list Notification) : list Notification :=
  filter (has_variant "toast") ns.

(** [.filter(...).slice(0, 5)] *)
Definition sooners (ns : list Notification) : list Notification :=
  take 5 (filter (has_variant "sooner") ns).

(** The wrapper [div] of one toast. *)
Record ToastElement := {
  toast_key : string;
  toast_className : list JsValue;
  toast_item : ItemElement;
}.

(** The wrapper [div] of one stacked sooner notification. *)
Record SoonerElement := {
  sooner_key : string;
  sooner_className : list JsValue;
  sooner_item : ItemElement;
}.

(** The single [div] that holds the sooner stack. *)
Record SoonerGroup := {
  group_className : list JsValue;
  group_children : list SoonerElement;
}.

(** The fragment returned by [NotificationContainer]. *)
Record ContainerElement := {
  toast_elements : list ToastElement;
  sooner_group : SoonerGroup;
}.

(** [positionClasses[n?.options?.position || "top-right"]] for an optional
    notification [n] ([sooners[0]] is [undefined] on an empty array). *)
Definition position_class (n : option Notification) : JsValue :=
  js_lookup positionClasses (or_default ((n ≫= options) ≫= position) "top-right").

Definition toast_classes (n : Notification) : list JsValue :=
  [ JsString "z-50"; position_class (Some n) ].

Definition group_classes (ss : list Notification) : list JsValue :=
  [ JsString "z-50"; position_class (head ss); JsString "space-y-2" ].

(** The per-index classes of a stacked notification:
    [`translate-y-${index * -2}`] and [`w-[calc(20rem-${index * 4}px)]`].
    At index 0 the product is [-0], which a template literal prints as [0],
    as [pretty] does for the integer 0. *)
Definition stack_classes (index : nat) : list JsValue :=
  [ JsString "transition-all duration-300 ease-in-out";
    JsString ("translate-y-" +:+ pretty (Z.of_nat index * -2)%Z);
    JsString ("w-[calc(20rem-" +:+ pretty (Z.of_nat index * 4)%Z +:+ "px)]") ].

Definition toast_div (n : Notification) (item : ItemElement) : ToastElement :=
  {| toast_key := id n;
     toast_className := toast_classes n;
     toast_item := item |}.

Definition sooner_div (index : nat) (n : Notification) (item : ItemElement)
  : SoonerElement :=
  {| sooner_key := id n;
     sooner_className := stack_classes index;
     sooner_item := item |}.

(** The body of [toasts.map((notification) => ...)]. *)
Definition render_toast (context : option NotificationContextProps)
    (n : Notification) : Result ToastElement :=
  item ← NotificationItem context (id n) (message n) (options n);
  mret (toast_div n item).

(** The body of [sooners.map((notification, index) => ...)]. *)
Definition render_sooner (context : option NotificationContextProps)
    (entry : nat * Notification) : Result SoonerElement :=
  item ← NotificationItem context (id entry.2) (message entry.2) (options entry.2);
  mret (sooner_div entry.1 entry.2 item).

(** [context] is what the [NotificationItem]s below the container read with
    [useContext]. *)
Definition NotificationContainer (context : option NotificationContextProps)
    (ns : list Notification) : Result ContainerElement :=
  toast_divs ← mapM (render_toast context) (toasts ns);
  sooner_divs ← mapM (render_sooner context) (imap pair (sooners ns));
  mret {| toast_elements := toast_divs;
          sooner_group :=
            {| group_className := group_classes (sooners ns);
               group_children := sooner_divs |} |}.

(** What [NotificationProvider] renders besides its children: the container
    over the current array, inside the provider's context. *)
Definition NotificationProvider (s : State) : Result ContainerElement :=
  NotificationContainer (Some dispatcher) (notifications s).

(** ** Example: the three buttons of the demo component *)

Definition showToast (now : Z) : Event :=
  Add now "This is a toast notification!"
    (Some {| duration := Some 3000%float; variant := Some "toast";
             type := Some "success"; position := Some "top-right" |}).

Definition showSooner (now : Z) : Event :=
  Add now "This is a sooner notification!"
    (Some {| duration := Some 5000%float; variant := Some "sooner";
             type := Some "warning"; position := Some "top-right" |}).

Definition showBanner (now : Z) : Event :=
  Add now "This is a banner notification!"
    (Some {| duration := Some 7000%float; variant := Some "banner";
             type := Some "error"; position := None |}).

(** ** Views of a rendering used in the statements *)

(** The keys and texts of the rendered sooner stack, in order. *)
Definition rendered_sooners (r : ContainerElement) : list (string * string) :=
  (λ e, (sooner_key e, item_span (sooner_item e))) <$> group_children (sooner_group r).

(** The keys and texts of the rendered toasts, in order. *)
Definition rendered_toasts (r : ContainerElement) : list (string * string) :=
  (λ e, (toast_key e, item_span (toast_item e))) <$> toast_elements r.

(** The screen anchor of the sooner stack: the second [cfx] argument of the
    group's [div]. *)
Definition group_anchor (r : ContainerElement) : option JsValue :=
  group_className (sooner_group r) !! 1.

(** An event leaves the record with id [i] alone: it is no removal of [i]
    and arms no timer for [i]. *)
Definition quiet_for (i : string) (e : Event) : Prop :=
  match e with
  | Add now _ options => notification_id now = i → arming_delay options = None
  | Remove j => j ≠ i
  | Fire _ => True
  end.

(** ** Example: the component itself *)

(** The record an [addNotification] call creates. *)
Definition created (e : Event) : option Notification :=
  match e with
  | Add now message options =>
      Some {| id := notification_id now; message := message; options := options |}
  | _ => None
  end.

(** The [onClick] handlers of the three buttons [Example] returns, each a
    function of the clock reading at the click and of the state of the
    provider whose context the component read. *)
Record ExampleElement := {
  example_showToast : Z → State → State;
  example_showSooner : Z → State → State;
  example_showBanner : Z → State → State;
}.

(** [Example] reads the dispatcher with [useNotification] before it returns
    its own [NotificationProvider]; [context] is therefore the context around
    the component, not the one of the provider it renders. *)
Definition Example (context : option NotificationContextProps)
  : Result ExampleElement :=
  c ← useNotification context;
  mret
    {| example_showToast := λ now,
         ctx_addNotification c now "This is a toast notification!"
           (Some {| duration := Some 3000%float; variant := Some "toast";
                    type := Some "success"; position := Some "top-right" |});
       example_showSooner := λ now,
         ctx_addNotification c now "This is a sooner notification!"
           (Some {| duration := Some 5000%float; variant := Some "sooner";
                    type := Some "warning"; position := Some "top-right" |});
       example_showBanner := λ now,
         ctx_addNotification c now "This is a banner notification!"
           (Some {| duration := Some 7000%float; variant := Some "banner";
                    type := Some "error"; position := None |}) |}.

(** The keys of every element a rendering holds, toasts first. *)
Definition rendered_keys (r : ContainerElement) : list string :=
  (toast_key <$> toast_elements r)
  ++ (sooner_key <$> group_children (sooner_group r)).

(** A pending timer is well armed for a list of clock readings when its
    delay is truthy and its id was made from one of the readings. *)
Definition well_armed (clocks : list Z) (t : Timer) : Prop :=
  truthy_number (timer_delay t) = true
  ∧ timer_id t ∈ notification_id <$> clocks.

(** * Properties *)

(** ** Ids *)

Lemma notification_id_inj (t1 t2 : Z) :
  notification_id t1 = notification_id t2 → t1 = t2.
Proof.
  unfold notification_id. intros E.
  apply (inj (String.append "notification_")) in E.
  by apply pretty_Z_inj in E.
Qed.

(** ** The store *)

Lemma notifications_add now message options s :
  notifications (addNotification now message options s)
  = notifications s
      ++ [{| id := notification_id now; message := message; options := options |}].
Proof. unfold addNotification. by destruct (arming_delay options). Qed.

Lemma timers_add now message options s :
  timers (addNotification now message options s)
  = timers s
      ++ match arming_delay options with
         | Some d => [{| timer_id := notification_id now; timer_delay := d |}]
         | None => []
         end.
Proof.
  unfold addNotification. destruct (arming_delay options); simpl; [done|].
  by rewrite app_nil_r.
Qed.

Lemma notifications_remove i s :
  notifications (removeNotification i s)
  = filter (λ notif, id notif ≠ i) (notifications s).
Proof. done. Qed.

Lemma filter_id_absent (i : string) (ns : list Notification) :
  i ∉ id <$> ns → filter (λ notif, id notif ≠ i) ns = ns.
Proof.
  induction ns as [|n ns IH]; [done|]. rewrite fmap_cons, not_elem_of_cons.
  intros [Hn Hns]. rewrite filter_cons_True by done. by rewrite IH.
Qed.

(** ** Rendering inside a provider *)

Lemma mapM_Ok {A B} (f : A → Result B) (g : A → B) (l : list A) :
  (∀ x, f x = Ok (g x)) → mapM f l = Ok (g <$> l).
Proof.
  intros Hf. induction l as [|x l IH]; [done|].
  simpl. rewrite Hf. simpl. rewrite IH. done.
Qed.

Lemma NotificationContainer_Some c ns :
  NotificationContainer (Some c) ns
  = Ok {| toast_elements :=
            (λ n, toast_div n (item_div c (id n) (message n) (options n)))
              <$> toasts ns;
          sooner_group :=
            {| group_className := group_classes (sooners ns);
               group_children :=
                 imap (λ index n,
                         sooner_div index n
                           (item_div c (id n) (message n) (options n)))
                      (sooners ns) |} |}.
Proof.
  unfold NotificationContainer.
  rewrite (mapM_Ok (render_toast (Some c))
             (λ n, toast_div n (item_div c (id n) (message n) (options n))))
    by done.
  simpl.
  rewrite (mapM_Ok (render_sooner (Some c))
             (λ e, sooner_div e.1 e.2
                     (item_div c (id e.2) (message e.2) (options e.2))))
    by done.
  simpl. do 3 f_equal.
  rewrite fmap_imap. done.
Qed.

(** ** C9: the hook outside a provider *)

(** C9. Without an enclosing provider the context is absent and
    [useNotification] throws at the call, with the source's message; inside a
    provider it returns the dispatcher.  A [NotificationItem] rendered outside
    a provider throws the same error, since it calls the hook first. *)
Theorem useNotification_outside_provider_throws :
  useNotification None
  = Throw (Error "useNotification must be used within a NotificationProvider")
  ∧ (∀ c, useNotification (Some c) = Ok c)
  ∧ (∀ context, (∃ c, useNotification context = Ok c) ↔ is_Some context)
  ∧ (∀ i message options,
       NotificationItem None i message options
       = Throw (Error "useNotification must be used within a NotificationProvider")).
Proof.
  split_and!; try done.
  intros [c|]; split.
  - by eauto.
  - intros _. by exists c.
  - intros [c Hc]. discriminate Hc.
  - intros H. by apply is_Some_None in H.
Qed.

(** ** C5: removing an id that is not there *)

Lemma filter_id_idemp (i : string) (ns : list Notification) :
  filter (λ notif, id notif ≠ i) (filter (λ notif, id notif ≠ i) ns)
  = filter (λ notif, id notif ≠ i) ns.
Proof.
  induction ns as [|n ns IH]; [done|].
  destruct (decide (id n = i)) as [E|E].
  - rewrite (filter_cons_False _ n ns) by (intros H; by apply H). done.
  - rewrite (filter_cons_True _ n ns) by done.
    rewrite filter_cons_True by done. by rewrite IH.
Qed.

(** C5. [removeNotification] on an id that no live record carries returns the
    state it was given; it is a total function, so nothing is thrown.  Hence a
    second removal of the same id changes nothing, and a timer that fires for
    an id that is gone leaves the set as it was. *)
Theorem removeNotification_absent_is_noop (i : string) (s : State) :
  i ∉ live_ids s →
  removeNotification i s = s
  ∧ removeNotification i (removeNotification i s) = removeNotification i s
  ∧ (∀ j, removeNotification j (removeNotification j s) = removeNotification j s)
  ∧ (∀ k t, timers s !! k = Some t → timer_id t = i →
            notifications (step s (Fire k)) = notifications s).
Proof.
  intros Hi. unfold live_ids in Hi.
  assert (removeNotification i s = s) as Hs.
  { destruct s as [ns ts]. unfold removeNotification. simpl in *.
    by rewrite filter_id_absent. }
  split_and!.
  - done.
  - by rewrite !Hs.
  - intros j. unfold removeNotification. simpl. by rewrite filter_id_idemp.
  - intros k t Hk Ht. simpl. rewrite Hk. simpl. rewrite Ht.
    by apply filter_id_absent.
Qed.

Lemma removeNotification_absent_is_noop_witness :
  let s := run initial [showToast 1; showSooner 2] in
  removeNotification "notification_3" s = s
  ∧ notifications (step (removeNotification "notification_1" s) (Fire 0))
    = notifications (removeNotification "notification_1" s).
Proof.
  intros s. split.
  - apply (removeNotification_absent_is_noop "notification_3" s).
    apply (bool_decide_unpack _). vm_compute. exact I.
  - apply (removeNotification_absent_is_noop "notification_1"
             (removeNotification "notification_1" s))
      with (t := {| timer_id := "notification_1"; timer_delay := 3000%float |}).
    + apply (bool_decide_unpack _). vm_compute. exact I.
    + reflexivity.
    + reflexivity.
Defined.

(** ** C7: the store changes by append or by filtering on an id *)

(** C7. [addNotification] returns the old array followed by one new record
    that carries the given message and options untouched.
    [removeNotification i] returns a subsequence of the old array: the records
    whose id differs from [i] are the same records in the same order, and
    nothing with id [i] is left.  Every event of a provider (a call of either
    function, or a timer firing) is one of these two changes or none. *)
Theorem store_changes_by_append_or_removal (s : State) :
  (∀ now msg opts,
     ∃ r, notifications (addNotification now msg opts s)
          = notifications s ++ [r]
          ∧ message r = msg ∧ options r = opts)
  ∧ (∀ i,
       notifications (removeNotification i s) `sublist_of` notifications s
       ∧ filter (λ n, id n ≠ i) (notifications (removeNotification i s))
         = filter (λ n, id n ≠ i) (notifications s)
       ∧ (∀ n, n ∈ notifications (removeNotification i s)
               ↔ n ∈ notifications s ∧ id n ≠ i))
  ∧ (∀ e,
       (∃ r, notifications (step s e) = notifications s ++ [r])
       ∨ (∃ i, notifications (step s e) = notifications (removeNotification i s))
       ∨ notifications (step s e) = notifications s).
Proof.
  split_and!.
  - intros now msg opts. eexists. rewrite notifications_add.
    split; [reflexivity|]. done.
  - intros i. rewrite notifications_remove. split_and!.
    + apply sublist_filter.
    + apply filter_id_idemp.
    + intros n. rewrite list_elem_of_filter. tauto.
  - intros [now message options|i|k].
    + left. eexists. apply notifications_add.
    + right. left. by exists i.
    + simpl. destruct (timers s !! k) as [t|].
      * right. left. by exists (timer_id t).
      * by right; right.
Qed.

(** ** C10: one removal deletes every record with the id *)

Lemma length_filter_id_split (i : string) (ns : list Notification) :
  length (filter (λ n, id n ≠ i) ns) + length (filter (λ n, id n = i) ns)
  = length ns.
Proof.
  induction ns as [|n ns IH]; [done|].
  destruct (decide (id n = i)) as [E|E].
  - rewrite (filter_cons_False (λ n, id n ≠ i)) by (intros H; by apply H).
    rewrite (filter_cons_True (λ n, id n = i)) by done. simpl. lia.
  - rewrite (filter_cons_True (λ n, id n ≠ i)) by done.
    rewrite (filter_cons_False (λ n, id n = i)) by done. simpl. lia.
Qed.

(** C10. After [removeNotification i] no record with id [i] is left, however
    many there were: the array shrinks by the number of records that carried
    [i].  Two calls of [addNotification] at the same clock reading give two
    live records with one id, and a single removal of that id deletes both. *)
Theorem removeNotification_deletes_all_matches (i : string) (s : State) :
  (∀ n, n ∈ notifications (removeNotification i s) → id n ≠ i)
  ∧ length (notifications (removeNotification i s))
    + length (filter (λ n, id n = i) (notifications s))
    = length (notifications s)
  ∧ (∀ now m1 o1 m2 o2,
       let twice := run initial [Add now m1 o1; Add now m2 o2] in
       live_ids twice = [notification_id now; notification_id now]
       ∧ length (notifications twice) = 2
       ∧ notifications (removeNotification (notification_id now) twice) = []).
Proof.
  split_and!.
  - intros n. rewrite notifications_remove, list_elem_of_filter. tauto.
  - rewrite notifications_remove. apply length_filter_id_split.
  - intros now m1 o1 m2 o2 twice. subst twice.
    unfold run, live_ids. cbn [foldl step].
    rewrite notifications_remove, !notifications_add. simpl.
    split_and!; [done..|].
    rewrite !filter_cons_False by (intros H; by apply H). done.
Qed.

(** ** C2: the window of five sooner notifications *)

Lemma rendered_sooners_Some c ns r :
  NotificationContainer (Some c) ns = Ok r →
  rendered_sooners r = (λ n, (id n, message n)) <$> sooners ns.
Proof.
  rewrite NotificationContainer_Some. intros [= <-].
  unfold rendered_sooners. simpl. rewrite fmap_imap.
  by rewrite <- imap_const.
Qed.

Lemma rendered_toasts_Some c ns r :
  NotificationContainer (Some c) ns = Ok r →
  rendered_toasts r = (λ n, (id n, message n)) <$> toasts ns.
Proof.
  rewrite NotificationContainer_Some. intros [= <-].
  unfold rendered_toasts. simpl. by rewrite <- list_fmap_compose.
Qed.

(** C2. Seven sooner notifications A..G added while the clock reads one and
    the same millisecond all carry one id.  They render as A..E with all seven
    in the set; removing A, which is a removal of that id, deletes the seven
    of them, so the next rendering of the stack is empty and not B..F. *)
Theorem same_millisecond_sooners_leave_together :
  let sooner := Some {| duration := None; variant := Some "sooner";
                        type := None; position := None |} in
  let s := run initial
             [ Add 1000 "A" sooner; Add 1000 "B" sooner; Add 1000 "C" sooner;
               Add 1000 "D" sooner; Add 1000 "E" sooner; Add 1000 "F" sooner;
               Add 1000 "G" sooner ] in
  (∃ r, NotificationProvider s = Ok r
        ∧ rendered_sooners r
          = [ ("notification_1000", "A"); ("notification_1000", "B");
              ("notification_1000", "C"); ("notification_1000", "D");
              ("notification_1000", "E") ])
  ∧ message <$> notifications s = ["A"; "B"; "C"; "D"; "E"; "F"; "G"]
  ∧ live_ids s = replicate 7 "notification_1000"
  ∧ notifications (removeNotification "notification_1000" s) = []
  ∧ (∃ r, NotificationProvider (removeNotification "notification_1000" s) = Ok r
          ∧ rendered_sooners r = []).
Proof.
  intros sooner s. split_and!.
  - eexists. split; [apply NotificationContainer_Some|]. reflexivity.
  - reflexivity.
  - reflexivity.
  - reflexivity.
  - eexists. split; [apply NotificationContainer_Some|]. reflexivity.
Qed.

(** X17. The rendered sooner stack is exactly the first five sooner-variant
    records of the array, in array order, whatever else the array holds; it
    is recomputed from the array at each rendering.  Seven sooner
    notifications A..G added in that order render as A..E while all seven are
    in the set; once A is removed, its clock reading being that of none of
    the others, they render as B..F. *)
Theorem sooner_stack_is_first_five
    (tA tB tC tD tE tF tG : Z) (mA mB mC mD mE mF mG : string)
    (oA oB oC oD oE oF oG : NotificationOptions) :
  Forall (λ o, variant o = Some "sooner") [oA; oB; oC; oD; oE; oF; oG] →
  tA ∉ [tB; tC; tD; tE; tF; tG] →
  let s := run initial
             [ Add tA mA (Some oA); Add tB mB (Some oB); Add tC mC (Some oC);
               Add tD mD (Some oD); Add tE mE (Some oE); Add tF mF (Some oF);
               Add tG mG (Some oG) ] in
  (∀ st, ∃ r, NotificationProvider st = Ok r
              ∧ rendered_sooners r
                = (λ n, (id n, message n))
                    <$> take 5 (filter (has_variant "sooner") (notifications st))
              ∧ length (rendered_sooners r)
                = 5 `min` length (filter (has_variant "sooner") (notifications st)))
  ∧ (∃ r, NotificationProvider s = Ok r
          ∧ rendered_sooners r
            = [ (notification_id tA, mA); (notification_id tB, mB);
                (notification_id tC, mC); (notification_id tD, mD);
                (notification_id tE, mE) ])
  ∧ length (notifications s) = 7
  ∧ (∃ r, NotificationProvider (removeNotification (notification_id tA) s) = Ok r
          ∧ rendered_sooners r
            = [ (notification_id tB, mB); (notification_id tC, mC);
                (notification_id tD, mD); (notification_id tE, mE);
                (notification_id tF, mF) ]).
Proof.
  intros Hv HA s.
  assert (∀ st, ∃ r, NotificationProvider st = Ok r
                ∧ rendered_sooners r
                  = (λ n, (id n, message n)) <$> sooners (notifications st))
    as Hrender.
  { intros st. unfold NotificationProvider. eexists. split.
    - apply NotificationContainer_Some.
    - eapply rendered_sooners_Some, NotificationContainer_Some. }
  assert (notifications s
          = [ {| id := notification_id tA; message := mA; options := Some oA |};
              {| id := notification_id tB; message := mB; options := Some oB |};
              {| id := notification_id tC; message := mC; options := Some oC |};
              {| id := notification_id tD; message := mD; options := Some oD |};
              {| id := notification_id tE; message := mE; options := Some oE |};
              {| id := notification_id tF; message := mF; options := Some oF |};
              {| id := notification_id tG; message := mG; options := Some oG |} ])
    as Hs.
  { subst s. unfold run. cbn [foldl step]. by rewrite !notifications_add. }
  repeat match goal with
         | H : Forall _ (_ :: _) |- _ => apply Forall_cons in H as [? H]
         end.
  repeat match goal with
         | H : _ ∉ _ :: _ |- _ => apply not_elem_of_cons in H as [? H]
         end.
  split_and!.
  - intros st. destruct (Hrender st) as (r & Hr & Hview). exists r.
    split; [done|]. split; [exact Hview|].
    rewrite Hview. unfold sooners. by rewrite length_fmap, length_take.
  - destruct (Hrender s) as (r & Hr & Hview). exists r. split; [done|].
    rewrite Hview, Hs. unfold sooners.
    rewrite !filter_cons_True by (unfold has_variant; simpl; done). done.
  - by rewrite Hs.
  - destruct (Hrender (removeNotification (notification_id tA) s))
      as (r & Hr & Hview).
    exists r. split; [done|].
    rewrite Hview, notifications_remove, Hs.
    rewrite filter_cons_False by (simpl; intros H'; by apply H').
    rewrite !filter_cons_True
      by (simpl; intros H'; apply notification_id_inj in H'; congruence).
    rewrite filter_nil. unfold sooners.
    rewrite !filter_cons_True by (unfold has_variant; simpl; done). done.
Qed.

Lemma sooner_stack_is_first_five_witness :
  let sooner := {| duration := None; variant := Some "sooner";
                   type := None; position := None |} in
  let s := run initial
             [ Add 1 "A" (Some sooner); Add 2 "B" (Some sooner);
               Add 3 "C" (Some sooner); Add 4 "D" (Some sooner);
               Add 5 "E" (Some sooner); Add 6 "F" (Some sooner);
               Add 7 "G" (Some sooner) ] in
  (∃ r, NotificationProvider s = Ok r
        ∧ rendered_sooners r
          = [ ("notification_1", "A"); ("notification_2", "B");
              ("notification_3", "C"); ("notification_4", "D");
              ("notification_5", "E") ])
  ∧ (∃ r, NotificationProvider (removeNotification "notification_1" s) = Ok r
          ∧ rendered_sooners r
            = [ ("notification_2", "B"); ("notification_3", "C");
                ("notification_4", "D"); ("notification_5", "E");
                ("notification_6", "F") ]).
Proof.
  intros sooner s.
  pose proof (sooner_stack_is_first_five 1 2 3 4 5 6 7
                "A" "B" "C" "D" "E" "F" "G"
                sooner sooner sooner sooner sooner sooner sooner) as H.
  destruct H as (_ & H1 & _ & H2).
  - repeat constructor.
  - apply (bool_decide_unpack _). vm_compute. exact I.
  - split; [exact H1 | exact H2].
Defined.

(** ** C3: toasts and banners *)

Lemma toasts_sooners_other_variant (v : string) (ns : list Notification) :
  v ≠ "toast" → v ≠ "sooner" →
  Forall (has_variant v) ns → toasts ns = [] ∧ sooners ns = [].
Proof.
  intros Ht Hs Hall. unfold toasts, sooners.
  assert (∀ w, w ≠ v → filter (has_variant w) ns = []) as Hnone.
  { intros w Hw. induction Hall as [|n ns Hn _ IH]; [done|].
    rewrite filter_cons_False; [done|].
    unfold has_variant in *. congruence. }
  by rewrite !Hnone.
Qed.

(** C3. The banner button of the demo component adds a banner notification;
    it is in the set, yet the container renders nothing for it: neither a
    toast wrapper nor a child of the sooner stack.  The same holds for an
    array made of banners only.  (Every toast, by contrast, is rendered, one
    wrapper each with its own position class and no cap.) *)
Theorem banner_notifications_are_not_rendered :
  let s := step initial (showBanner 1000) in
  live_ids s = ["notification_1000"]
  ∧ Forall (has_variant "banner") (notifications s)
  ∧ (∃ r, NotificationProvider s = Ok r
          ∧ toast_elements r = []
          ∧ group_children (sooner_group r) = [])
  ∧ (∀ ns, Forall (has_variant "banner") ns →
           ∃ r, NotificationContainer (Some dispatcher) ns = Ok r
                ∧ toast_elements r = []
                ∧ group_children (sooner_group r) = [])
  ∧ (∀ ns, ∃ r, NotificationContainer (Some dispatcher) ns = Ok r
                ∧ (λ e, (toast_key e, toast_className e)) <$> toast_elements r
                  = (λ n, (id n, toast_classes n))
                      <$> filter (has_variant "toast") ns).
Proof.
  assert (∀ ns, Forall (has_variant "banner") ns →
           ∃ r, NotificationContainer (Some dispatcher) ns = Ok r
                ∧ toast_elements r = []
                ∧ group_children (sooner_group r) = []) as Hbanners.
  { intros ns Hns. eexists. split; [apply NotificationContainer_Some|].
    destruct (toasts_sooners_other_variant "banner" ns) as [-> ->]; done. }
  simpl. split_and!.
  - reflexivity.
  - repeat constructor.
  - apply Hbanners. repeat constructor.
  - exact Hbanners.
  - intros ns. eexists. split; [apply NotificationContainer_Some|].
    simpl. by rewrite <- list_fmap_compose.
Qed.

(** ** C4: when a timer is armed *)

Lemma quiet_step (i : string) (s : State) (e : Event) (n : Notification) :
  n ∈ notifications s → id n = i →
  Forall (λ t, timer_id t ≠ i) (timers s) →
  quiet_for i e →
  n ∈ notifications (step s e)
  ∧ Forall (λ t, timer_id t ≠ i) (timers (step s e)).
Proof.
  intros Hn Hid Hts Hq. destruct e as [now msg opts|j|k]; simpl in *.
  - rewrite notifications_add, timers_add. split.
    + apply elem_of_app. by left.
    + apply Forall_app. split; [done|].
      destruct (arming_delay opts) as [d|] eqn:Hd; [|done].
      repeat constructor. simpl. intros E. specialize (Hq E). congruence.
  - split; [|done]. apply list_elem_of_filter. split; [congruence|done].
  - destruct (timers s !! k) as [t|] eqn:Hk; [|done]. simpl. split.
    + apply list_elem_of_filter. split; [|done].
      rewrite Forall_lookup in Hts. specialize (Hts k t Hk). congruence.
    + by apply Forall_delete.
Qed.

Lemma quiet_run (i : string) (es : list Event) (s : State) (n : Notification) :
  n ∈ notifications s → id n = i →
  Forall (λ t, timer_id t ≠ i) (timers s) →
  Forall (quiet_for i) es →
  n ∈ notifications (run s es).
Proof.
  revert s. induction es as [|e es IH]; intros s Hn Hid Hts Hes; [done|].
  apply Forall_cons in Hes as [He Hes].
  destruct (quiet_step i s e n Hn Hid Hts He) as [Hn' Hts'].
  unfold run. simpl. by apply IH.
Qed.

(** C4, as stated, fails: a negative duration is not greater than zero, and
    the call arms a timer with it all the same. *)
Lemma negative_duration_arms_a_timer :
  timers (addNotification 1000 "late"
            (Some {| duration := Some (-1)%float; variant := None;
                     type := None; position := None |}) initial)
  = [{| timer_id := "notification_1000"; timer_delay := (-1)%float |}]
  ∧ PrimFloat.ltb 0 (-1) = false.
Proof. split; reflexivity. Qed.

(** C4, amended. [addNotification] arms a timer for the new id exactly when
    [options.duration] is present and truthy: any number but [0], [-0] and
    [NaN], negative ones included.  Otherwise the pending timers are what
    they were, and the new record stays in the set through every run of
    events in which its id is not removed by a call and no timer for its id
    is pending or gets armed. *)
Theorem timer_armed_iff_duration_truthy
    (now : Z) (msg : string) (opts : option NotificationOptions) (s : State) :
  ((∃ d, timers (addNotification now msg opts s)
         = timers s ++ [{| timer_id := notification_id now; timer_delay := d |}])
   ↔ (∃ d, opts ≫= duration = Some d ∧ truthy_number d = true))
  ∧ (∀ d, opts ≫= duration = Some d → truthy_number d = true →
          timers (addNotification now msg opts s)
          = timers s ++ [{| timer_id := notification_id now; timer_delay := d |}])
  ∧ ((opts ≫= duration = None
      ∨ ∃ d, opts ≫= duration = Some d ∧ truthy_number d = false) →
     timers (addNotification now msg opts s) = timers s
     ∧ ∀ es,
         Forall (λ t, timer_id t ≠ notification_id now) (timers s) →
         Forall (quiet_for (notification_id now)) es →
         {| id := notification_id now; message := msg; options := opts |}
           ∈ notifications (run (addNotification now msg opts s) es))
  ∧ truthy_number 0 = false
  ∧ truthy_number (-0) = false
  ∧ truthy_number nan = false
  ∧ truthy_number (-1) = true.
Proof.
  assert (∀ d, opts ≫= duration = Some d → truthy_number d = true →
          arming_delay opts = Some d) as Harm.
  { intros d Hd Ht. unfold arming_delay. by rewrite Hd, Ht. }
  assert ((opts ≫= duration = None
           ∨ ∃ d, opts ≫= duration = Some d ∧ truthy_number d = false) →
          arming_delay opts = None) as Hnone.
  { unfold arming_delay. intros [->|(d & -> & ->)]; done. }
  split_and!; try reflexivity.
  - rewrite timers_add. split.
    + intros [d Hd]. apply app_inv_head in Hd.
      unfold arming_delay in *.
      destruct (opts ≫= duration) as [d'|]; [|done].
      destruct (truthy_number d') eqn:Ht; [|done]. by exists d'.
    + intros (d & Hd & Ht). exists d. by rewrite (Harm d Hd Ht).
  - intros d Hd Ht. by rewrite timers_add, (Harm d Hd Ht).
  - intros Hfalsy. specialize (Hnone Hfalsy).
    split.
    + rewrite timers_add, Hnone. by rewrite app_nil_r.
    + intros es Hts Hes. apply (quiet_run (notification_id now)); try done.
      * rewrite notifications_add. apply elem_of_app. right. by left.
      * by rewrite timers_add, Hnone, app_nil_r.
Qed.

Lemma timer_armed_iff_duration_truthy_witness :
  let persistent := Some {| duration := Some 0%float; variant := Some "toast";
                            type := None; position := None |} in
  timers (addNotification 5 "kept" persistent initial) = []
  ∧ {| id := "notification_5"; message := "kept"; options := persistent |}
      ∈ notifications
          (run (addNotification 5 "kept" persistent initial)
             [showToast 6; Fire 0; Remove "notification_7"; showSooner 8]).
Proof.
  intros persistent.
  destruct (timer_armed_iff_duration_truthy 5 "kept" persistent initial)
    as (_ & _ & H & _).
  destruct H as [H1 H2].
  - right. exists 0%float. split; reflexivity.
  - split; [exact H1|].
    apply (H2 [showToast 6; Fire 0; Remove "notification_7"; showSooner 8]).
    + constructor.
    + repeat constructor; simpl; intros E; discriminate E.
Defined.

(** ** C6: omitted and unrecognized option values *)

Lemma or_default_falsy (v : option string) (d : string) :
  truthy_string v = false → or_default v d = d.
Proof. unfold or_default. destruct v; [|done]. by intros ->. Qed.

Lemma or_default_truthy (key d : string) :
  truthy_string (Some key) = true → or_default (Some key) d = key.
Proof. unfold or_default. by intros ->. Qed.

(** C6, as stated, fails: an unrecognized value is truthy, so it is the key
    that is looked up, and the lookup finds nothing.  A toast at position
    ["middle"] with type ["info"] gets [undefined] where the defaults would
    give the top-right and the default type's classes; so does a variant
    that is no key of the table. *)
Lemma unrecognized_values_get_no_class :
  let opts := Some {| duration := None; variant := Some "toast";
                      type := Some "info"; position := Some "middle" |} in
  let n := {| id := "notification_1"; message := "hello"; options := opts |} in
  (∃ r, NotificationProvider {| notifications := [n]; timers := [] |} = Ok r
        ∧ toast_className <$> toast_elements r
          = [[JsString "z-50"; JsUndefined]]
        ∧ (item_className ∘ toast_item) <$> toast_elements r
          = [[JsString baseClasses; JsUndefined; JsString "shadow-lg"]])
  ∧ position_class None = JsString "fixed top-5 right-5"
  ∧ js_lookup typeClasses "default" = JsString "bg-gray-200 text-black"
  ∧ js_lookup variantClasses (or_default (Some "modal") "toast") = JsUndefined
  ∧ js_lookup variantClasses "toast" = JsString "shadow-lg".
Proof.
  intros opts n. split_and!; try reflexivity.
  eexists. split; [apply NotificationContainer_Some|]. split; reflexivity.
Qed.

(** C6, amended. An omitted option (absent, or the empty string) takes the
    default in each lookup: position [top-right] in the toast wrapper and in
    the sooner stack, type [default] and variant [toast] in the item.  A
    truthy value that is no key of the table is looked up as it is and never
    yields a class of the table.  Nothing is rejected: [addNotification]
    stores the options as given, and rendering inside a provider returns a
    result for every array. *)
Theorem omitted_options_take_the_defaults :
  (∀ n, truthy_string (options n ≫= position) = false →
        toast_classes n = [JsString "z-50"; JsString "fixed top-5 right-5"])
  ∧ (∀ n ns, truthy_string (options n ≫= position) = false →
        group_classes (n :: ns)
        = [JsString "z-50"; JsString "fixed top-5 right-5"; JsString "space-y-2"])
  ∧ (∀ c i msg opts, truthy_string (opts ≫= type) = false →
        item_className (item_div c i msg opts) !! 1
        = Some (JsString "bg-gray-200 text-black"))
  ∧ (∀ c i msg opts, truthy_string (opts ≫= variant) = false →
        item_className (item_div c i msg opts) !! 2
        = Some (JsString "shadow-lg"))
  ∧ (∀ table key d cls,
        truthy_string (Some key) = true → own_property table key = None →
        js_lookup table (or_default (Some key) d) ≠ JsString cls)
  ∧ (∀ now msg opts s,
        ∃ r, last (notifications (addNotification now msg opts s)) = Some r
             ∧ options r = opts)
  ∧ (∀ s, ∃ r, NotificationProvider s = Ok r).
Proof.
  split_and!.
  - intros n Hp. unfold toast_classes, position_class. simpl.
    by rewrite (or_default_falsy _ _ Hp).
  - intros n ns Hp. unfold group_classes, position_class. simpl.
    by rewrite (or_default_falsy _ _ Hp).
  - intros c i msg opts Ht. simpl. by rewrite (or_default_falsy _ _ Ht).
  - intros c i msg opts Hv. simpl. by rewrite (or_default_falsy _ _ Hv).
  - intros table key d cls Hk Hown. rewrite (or_default_truthy _ _ Hk).
    unfold js_lookup. rewrite Hown. by case_decide.
  - intros now msg opts s. eexists. rewrite notifications_add, last_snoc.
    split; reflexivity.
  - intros s. eexists. apply NotificationContainer_Some.
Qed.

Lemma omitted_options_take_the_defaults_witness :
  let bare := {| id := "notification_1"; message := "plain"; options := None |} in
  toast_classes bare = [JsString "z-50"; JsString "fixed top-5 right-5"]
  ∧ item_className (item_div dispatcher "notification_1" "plain" None) !! 1
    = Some (JsString "bg-gray-200 text-black")
  ∧ item_className (item_div dispatcher "notification_1" "plain" None) !! 2
    = Some (JsString "shadow-lg")
  ∧ js_lookup positionClasses (or_default (Some "middle") "top-right")
    ≠ JsString "fixed top-5 right-5".
Proof.
  intros bare.
  destruct omitted_options_take_the_defaults as (H1 & _ & H3 & H4 & H5 & _).
  split_and!.
  - apply H1. reflexivity.
  - apply H3. reflexivity.
  - apply H4. reflexivity.
  - apply H5; reflexivity.
Defined.

(** ** C8: where the sooner stack is anchored *)

Lemma stack_classes_inj (j k : nat) : stack_classes j = stack_classes k → j = k.
Proof.
  unfold stack_classes. intros [= E _]. simpl in E.
  apply pretty_Z_inj in E. lia.
Qed.

(** C8, as stated, fails: the stack has one anchor, taken from its first
    notification.  With a top-right sooner notification followed by a
    bottom-left one, both are children of one [div] anchored top-right, and
    the second gets the classes of index 1 although it is the first of its
    position. *)
Lemma sooner_stack_has_one_anchor :
  let sooner_at p := Some {| duration := None; variant := Some "sooner";
                             type := None; position := Some p |} in
  let a := {| id := "notification_1"; message := "first";
              options := sooner_at "top-right" |} in
  let b := {| id := "notification_2"; message := "second";
              options := sooner_at "bottom-left" |} in
  ∃ r, NotificationProvider {| notifications := [a; b]; timers := [] |} = Ok r
       ∧ rendered_sooners r
         = [("notification_1", "first"); ("notification_2", "second")]
       ∧ group_anchor r = Some (JsString "fixed top-5 right-5")
       ∧ position_class (Some b) = JsString "fixed bottom-5 left-5"
       ∧ sooner_className <$> group_children (sooner_group r)
         = [stack_classes 0; stack_classes 1].
Proof.
  intros sooner_at a b. eexists.
  split; [apply NotificationContainer_Some|].
  split_and!; reflexivity.
Qed.

(** C8, amended. The rendered sooner notifications are the children of one
    [div], anchored at the position of the first of them (top-right when
    that one names none, or when there is none).  The child at index [k] of
    the capped, filtered array carries classes that are a function of [k]
    alone: index 0 has no offset and full width, and different indices give
    different classes. *)
Theorem sooner_stack_anchor_and_offsets
    (c : NotificationContextProps) (ns : list Notification) :
  ∃ r, NotificationContainer (Some c) ns = Ok r
       ∧ group_className (sooner_group r)
         = [ JsString "z-50"; position_class (head (sooners ns));
             JsString "space-y-2" ]
       ∧ length (group_children (sooner_group r)) = length (sooners ns)
       ∧ (∀ k n, sooners ns !! k = Some n →
            ∃ e, group_children (sooner_group r) !! k = Some e
                 ∧ sooner_key e = id n
                 ∧ sooner_className e = stack_classes k)
       ∧ (truthy_string ((head (sooners ns) ≫= options) ≫= position) = false →
          group_anchor r = Some (JsString "fixed top-5 right-5"))
       ∧ stack_classes 0
         = [ JsString "transition-all duration-300 ease-in-out";
             JsString "translate-y-0"; JsString "w-[calc(20rem-0px)]" ]
       ∧ (∀ j k, stack_classes j = stack_classes k → j = k).
Proof.
  eexists. split; [apply NotificationContainer_Some|]. simpl.
  split_and!.
  - done.
  - by rewrite length_imap.
  - intros k n Hk. rewrite list_lookup_imap, Hk. simpl. by eexists.
  - intros Hp. unfold group_anchor. simpl. unfold position_class.
    by rewrite (or_default_falsy _ _ Hp).
  - reflexivity.
  - apply stack_classes_inj.
Qed.

(** ** C1: the size of the set and the uniqueness of ids *)

Lemma live_ids_remove_sublist (i : string) (s : State) :
  live_ids (removeNotification i s) `sublist_of` live_ids s.
Proof. unfold live_ids. apply fmap_sublist, sublist_filter. Qed.

Lemma length_matches_NoDup (i : string) (ns : list Notification) :
  NoDup (id <$> ns) →
  length (filter (λ n, id n = i) ns)
  = if bool_decide (i ∈ id <$> ns) then 1 else 0.
Proof.
  induction ns as [|n ns IH]; [done|].
  rewrite fmap_cons, NoDup_cons. intros [Hn Hns]. specialize (IH Hns).
  destruct (decide (id n = i)) as [E|E].
  - rewrite filter_cons_True by done. simpl. rewrite IH.
    rewrite bool_decide_eq_false_2 by congruence.
    rewrite bool_decide_eq_true_2; [done|]. rewrite E. by left.
  - rewrite filter_cons_False by done. rewrite IH.
    apply (f_equal (λ b : bool, if b then 1 else 0)).
    apply bool_decide_ext. rewrite elem_of_cons.
    split; [by right | intros [?|?]; [congruence|done]].
Qed.

Lemma removal_shrinks_by_one (i : string) (s : State) :
  NoDup (live_ids s) →
  length (notifications (removeNotification i s))
  + (if bool_decide (i ∈ live_ids s) then 1 else 0)
  = length (notifications s).
Proof.
  unfold live_ids. intros Hnd. rewrite notifications_remove.
  rewrite <- (length_matches_NoDup i (notifications s) Hnd).
  apply length_filter_id_split.
Qed.

(** With clock readings that differ from call to call the law of C1 holds:
    the ids stay pairwise distinct and the size of the set is the number of
    calls less the number of completed removals. *)
Lemma distinct_clocks_run (es : list Event) (s : State) (seen : list Z) :
  NoDup (seen ++ add_clocks es) →
  (∀ i, i ∈ live_ids s → ∃ t, t ∈ seen ∧ i = notification_id t) →
  NoDup (live_ids s) →
  NoDup (live_ids (run s es))
  ∧ length (notifications (run s es)) + completed_removals s es
    = length (notifications s) + add_calls es.
Proof.
  revert s seen. induction es as [|e es IH]; intros s seen Hclocks Hseen Hnd.
  { simpl. split; [done|]. unfold add_calls. simpl. lia. }
  assert (∀ i s', notifications s' = notifications (removeNotification i s) →
            NoDup (seen ++ add_clocks es) →
            NoDup (live_ids (run s' es))
            ∧ length (notifications (run s' es)) + completed_removals s' es
              = length (notifications (removeNotification i s)) + add_calls es)
    as Hremoved.
  { intros i s' Hs' Hclocks'.
    assert (live_ids s' `sublist_of` live_ids s) as Hsub.
    { unfold live_ids at 1. rewrite Hs'. apply live_ids_remove_sublist. }
    rewrite <- Hs'. apply (IH s' seen); [done| |].
    - intros j Hj. apply Hseen. by eapply elem_of_sublist.
    - by eapply sublist_NoDup. }
  destruct e as [now msg opts|i|k].
  - unfold add_clocks in Hclocks. simpl in Hclocks.
    fold (add_clocks es) in Hclocks.
    rewrite cons_middle, app_assoc in Hclocks.
    assert (now ∉ seen) as Hfresh.
    { apply NoDup_app in Hclocks as [Hc _]. apply NoDup_app in Hc as (_ & Hc & _).
      intros Hin. apply (Hc now Hin). by left. }
    destruct (IH (addNotification now msg opts s) (seen ++ [now])) as [H1 H2].
    + done.
    + intros i. unfold live_ids. rewrite notifications_add, fmap_app.
      rewrite elem_of_app. intros [Hi|Hi].
      * destruct (Hseen i Hi) as (t & Ht & ->). exists t.
        split; [|done]. apply elem_of_app. by left.
      * apply list_elem_of_singleton in Hi. exists now.
        split; [|done]. apply elem_of_app. right. by left.
    + unfold live_ids. rewrite notifications_add, fmap_app.
      apply NoDup_app. split_and!; [done| |apply NoDup_singleton].
      intros i Hi Hi'. apply list_elem_of_singleton in Hi'. simpl in Hi'.
      destruct (Hseen i Hi) as (t & Ht & Et).
      rewrite Et in Hi'. apply notification_id_inj in Hi'. congruence.
    + unfold run in *. simpl. split; [done|].
      rewrite notifications_add, length_app in H2. simpl in H2.
      unfold add_calls in *. rewrite filter_cons_True by done. simpl.
      unfold completes_removal. simpl. lia.
  - destruct (Hremoved i (removeNotification i s)) as [H1 H2]; [done|done|].
    unfold run in *. simpl. split; [done|].
    pose proof (removal_shrinks_by_one i s Hnd) as Hshrink.
    unfold add_calls in *. rewrite filter_cons_False by (simpl; tauto).
    unfold completes_removal. simpl. lia.
  - unfold run in *. simpl.
    unfold add_calls. rewrite filter_cons_False by (simpl; tauto).
    fold (add_calls es). unfold completes_removal. simpl.
    destruct (timers s !! k) as [t|] eqn:Hk; simpl.
    + destruct (Hremoved (timer_id t)
                  (removeNotification (timer_id t)
                     {| notifications := notifications s;
                        timers := delete k (timers s) |}))
        as [H1 H2]; [done|done|].
      split; [done|].
      pose proof (removal_shrinks_by_one (timer_id t) s Hnd) as Hshrink. lia.
    + destruct (IH s seen) as [H1 H2]; [done..|]. split; [done|]. lia.
Qed.

Lemma distinct_clocks_keep_the_law (es : list Event) :
  NoDup (add_clocks es) →
  NoDup (live_ids (run initial es))
  ∧ length (notifications (run initial es)) + completed_removals initial es
    = add_calls es.
Proof.
  intros Hclocks.
  destruct (distinct_clocks_run es initial []) as [H1 H2]; try done.
  - intros i Hi. by apply elem_of_nil in Hi.
  - constructor.
Qed.

(** C1. Two calls of [addNotification] while the clock reads the same
    millisecond give two live records with one id, so the ids are not
    pairwise distinct; one removal of that id then empties the set, while two
    calls less one completed removal would leave one record. *)
Theorem same_millisecond_adds_share_an_id :
  let es := [ Add 1000 "first" None; Add 1000 "second" None;
              Remove "notification_1000" ] in
  live_ids (run initial (take 2 es)) = ["notification_1000"; "notification_1000"]
  ∧ ¬ NoDup (live_ids (run initial (take 2 es)))
  ∧ length (notifications (run initial es)) = 0
  ∧ add_calls es = 2
  ∧ completed_removals initial es = 1.
Proof.
  simpl. split_and!; try reflexivity.
  intros Hnd. apply NoDup_cons in Hnd as [Hnd _]. apply Hnd. by left.
Qed.

(** * Further properties of the component *)

(** ** Ids and clock readings *)

(** X1. When the clock readings of the [addNotification] calls differ from
    one another, the live ids stay pairwise distinct through every run of
    calls and timers, and the size of the set is the number of calls less the
    number of removals that found their id. *)
Theorem distinct_clocks_give_unique_ids_and_exact_size (es : list Event) :
  NoDup (add_clocks es) →
  NoDup (live_ids (run initial es))
  ∧ length (notifications (run initial es)) + completed_removals initial es
    = add_calls es.
Proof.
  intros Hclocks.
  destruct (distinct_clocks_run es initial []) as [H1 H2]; try done.
  - intros i Hi. by apply elem_of_nil in Hi.
  - constructor.
Qed.

Lemma distinct_clocks_give_unique_ids_and_exact_size_witness :
  let es := [ showToast 1; showSooner 2; Fire 0; Remove "notification_2";
              showBanner 3; Remove "notification_9" ] in
  NoDup (live_ids (run initial es))
  ∧ length (notifications (run initial es)) + completed_removals initial es
    = add_calls es.
Proof.
  intros es. apply (distinct_clocks_give_unique_ids_and_exact_size es).
  apply (bool_decide_unpack _). vm_compute. exact I.
Defined.

(** X2. Two calls of [addNotification] produce the same id exactly when
    [Date.now()] gave them the same reading, whatever the messages and the
    options: the two newest live ids are equal if and only if the readings
    are. *)
Theorem ids_collide_iff_same_reading (t1 t2 : Z) :
  (notification_id t1 = notification_id t2 ↔ t1 = t2)
  ∧ (∀ m1 o1 m2 o2 s,
       ∃ i1 i2,
         live_ids (addNotification t2 m2 o2 (addNotification t1 m1 o1 s))
         = live_ids s ++ [i1; i2]
         ∧ (i1 = i2 ↔ t1 = t2)).
Proof.
  assert (notification_id t1 = notification_id t2 ↔ t1 = t2) as Hiff.
  { split; [apply notification_id_inj | by intros ->]. }
  split; [done|].
  intros m1 o1 m2 o2 s. exists (notification_id t1), (notification_id t2).
  split; [|done]. unfold live_ids.
  rewrite !notifications_add, !fmap_app. simpl.
  by rewrite <- app_assoc.
Qed.

(** ** What every run of a provider keeps *)

Lemma run_cons (s : State) (e : Event) (es : list Event) :
  run s (e :: es) = run (step s e) es.
Proof. done. Qed.

Lemma notifications_step_sublist (s : State) (e : Event) :
  notifications (step s e)
  `sublist_of` notifications s ++ option_list (created e).
Proof.
  destruct e as [now msg opts|i|k]; simpl.
  - by rewrite notifications_add.
  - rewrite app_nil_r. apply sublist_filter.
  - rewrite app_nil_r. destruct (timers s !! k); [apply sublist_filter|done].
Qed.

Lemma notifications_run_sublist (es : list Event) (s : State) :
  notifications (run s es) `sublist_of` notifications s ++ omap created es.
Proof.
  revert s. induction es as [|e es IH]; intros s.
  { simpl. by rewrite app_nil_r. }
  rewrite run_cons. etrans; [apply IH|].
  assert (omap created (e :: es) = option_list (created e) ++ omap created es)
    as ->.
  { simpl. by destruct (created e). }
  rewrite app_assoc. apply sublist_app; [|done].
  apply notifications_step_sublist.
Qed.

Lemma ids_of_created (es : list Event) :
  id <$> omap created es = notification_id <$> add_clocks es.
Proof.
  unfold add_clocks. induction es as [|[now msg opts|i|k] es IH];
    [done| |done|done].
  cbn [omap list_omap created add_clock]. by rewrite !fmap_cons, IH.
Qed.

Lemma length_created (es : list Event) :
  length (omap created es) = add_calls es.
Proof.
  unfold add_calls. induction es as [|[now msg opts|i|k] es IH]; [done| | |].
  - rewrite filter_cons_True by done.
    change (S (length (omap created es)) = S (length (filter is_add es))).
    by rewrite IH.
  - rewrite filter_cons_False by (simpl; tauto). exact IH.
  - rewrite filter_cons_False by (simpl; tauto). exact IH.
Qed.

(** X3. Whatever calls are made and whichever timers fire, the set is a
    subsequence of the records the [addNotification] calls created, in call
    order and with their messages and options as passed: nothing is
    reordered, altered or invented. *)
Theorem set_is_subsequence_of_created_records (es : list Event) :
  notifications (run initial es) `sublist_of` omap created es
  ∧ length (notifications (run initial es)) ≤ add_calls es
  ∧ (∀ n, n ∈ notifications (run initial es) →
          ∃ now, n = {| id := notification_id now; message := message n;
                        options := options n |}
                 ∧ Add now (message n) (options n) ∈ es).
Proof.
  pose proof (notifications_run_sublist es initial) as Hsub. simpl in Hsub.
  split_and!.
  - done.
  - apply sublist_length in Hsub. by rewrite length_created in Hsub.
  - intros n Hn. eapply elem_of_sublist in Hn; [|exact Hsub].
    apply list_elem_of_omap in Hn as (e & He & Hc).
    destruct e as [now msg opts|i|k]; simpl in Hc; [|done..].
    injection Hc as <-. simpl. by exists now.
Qed.

(** X4. An id that is not live does not come back, unless a later
    [addNotification] call reads the clock value that id was made from. *)
Theorem removed_id_stays_absent (i : string) (s : State) (es : list Event) :
  i ∉ live_ids s →
  i ∉ notification_id <$> add_clocks es →
  i ∉ live_ids (run s es).
Proof.
  intros Hs Hes Hin. unfold live_ids in *.
  eapply elem_of_sublist in Hin;
    [|apply fmap_sublist, notifications_run_sublist].
  rewrite fmap_app, ids_of_created in Hin.
  apply elem_of_app in Hin as [Hin|Hin]; tauto.
Qed.

Lemma removed_id_stays_absent_witness :
  let s := run initial [showToast 1; showSooner 2; Remove "notification_1"] in
  let es := [showBanner 3; Fire 0; showToast 4; Fire 5] in
  live_ids s = ["notification_2"]
  ∧ "notification_1" ∉ live_ids (run s es).
Proof.
  intros s es. split; [reflexivity|].
  apply (removed_id_stays_absent "notification_1" s es).
  - apply (bool_decide_unpack _). vm_compute. exact I.
  - apply (bool_decide_unpack _). vm_compute. exact I.
Defined.

(** ** Timers *)

Lemma arming_delay_Some (opts : option NotificationOptions) (d : float) :
  arming_delay opts = Some d ↔ opts ≫= duration = Some d ∧ truthy_number d = true.
Proof.
  unfold arming_delay. destruct (opts ≫= duration) as [d'|].
  - destruct (truthy_number d') eqn:Ht; split.
    + intros [= <-]. by split.
    + by intros [[= <-] _].
    + discriminate.
    + intros [[= <-] Hd]. congruence.
  - split; [discriminate|]. by intros [? _].
Qed.

Lemma well_armed_mono (l1 l2 : list Z) (t : Timer) :
  well_armed l1 t → well_armed (l1 ++ l2) t.
Proof.
  intros [Ht Hid]. split; [done|]. rewrite fmap_app. apply elem_of_app. by left.
Qed.

Lemma timers_run_well_armed (es : list Event) (s : State) (seen : list Z) :
  Forall (well_armed seen) (timers s) →
  Forall (well_armed (seen ++ add_clocks es)) (timers (run s es))
  ∧ length (timers (run s es)) ≤ length (timers s) + add_calls es.
Proof.
  revert s seen. induction es as [|e es IH]; intros s seen Hs.
  { simpl. rewrite app_nil_r. split; [done|lia]. }
  rewrite run_cons. destruct e as [now msg opts|i|k].
  - assert (seen ++ add_clocks (Add now msg opts :: es)
            = (seen ++ [now]) ++ add_clocks es) as ->.
    { by rewrite <- app_assoc. }
    destruct (IH (step s (Add now msg opts)) (seen ++ [now])) as [H1 H2].
    + simpl. rewrite timers_add. apply Forall_app. split.
      * eapply Forall_impl; [exact Hs|]. intros t. apply well_armed_mono.
      * destruct (arming_delay opts) as [d|] eqn:Hd; [|done].
        apply arming_delay_Some in Hd as [_ Hd].
        repeat constructor; simpl; [done|].
        rewrite fmap_app. apply elem_of_app. right. by left.
    + split; [done|]. simpl in H2. rewrite timers_add, length_app in H2.
      unfold add_calls in *. rewrite filter_cons_True by done.
      destruct (arming_delay opts); simpl in *; lia.
  - destruct (IH (step s (Remove i)) seen) as [H1 H2]; [done|].
    split; [done|]. unfold add_calls in *.
    rewrite filter_cons_False by (simpl; tauto). exact H2.
  - destruct (IH (step s (Fire k)) seen) as [H1 H2].
    + simpl. destruct (timers s !! k); [|done]. simpl. by apply Forall_delete.
    + split; [done|]. unfold add_calls in *.
      rewrite filter_cons_False by (simpl; tauto).
      etrans; [exact H2|]. apply Nat.add_le_mono_r.
      simpl. destruct (timers s !! k) eqn:Hk; [|done]. simpl.
      rewrite length_delete by eauto. lia.
Qed.

(** X5. In every run of a provider each pending timer has a delay that is
    neither zero nor [NaN] and targets an id made by one of the
    [addNotification] calls, and there are never more pending timers than
    there were calls. *)
Theorem pending_timers_are_well_armed (es : list Event) :
  Forall (well_armed (add_clocks es)) (timers (run initial es))
  ∧ length (timers (run initial es)) ≤ add_calls es.
Proof.
  destruct (timers_run_well_armed es initial []) as [H1 H2]; [done|].
  split; [exact H1|exact H2].
Qed.

(** X6. A call with a truthy duration leaves its record in the set and its timer
    last among the pending ones.  When that timer fires it is taken off the
    pending list and no record with the call's id is left; if the id was
    fresh, the set is back to what it was before the call. *)
Theorem expiry_removes_the_record
    (now : Z) (msg : string) (opts : option NotificationOptions) (s : State)
    (d : float) :
  opts ≫= duration = Some d → truthy_number d = true →
  let s1 := addNotification now msg opts s in
  let k := length (timers s) in
  {| id := notification_id now; message := msg; options := opts |}
    ∈ notifications s1
  ∧ timers s1 !! k
    = Some {| timer_id := notification_id now; timer_delay := d |}
  ∧ length (timers s1) = S k
  ∧ (notification_id now ∉ live_ids (step s1 (Fire k)))
  ∧ timers (step s1 (Fire k)) = timers s
  ∧ (notification_id now ∉ live_ids s →
     notifications (step s1 (Fire k)) = notifications s).
Proof.
  intros Hd Ht s1 k.
  assert (arming_delay opts = Some d) as Harm.
  { by apply arming_delay_Some. }
  assert (timers s1
          = timers s ++ [{| timer_id := notification_id now; timer_delay := d |}])
    as Hts.
  { subst s1. by rewrite timers_add, Harm. }
  assert (timers s1 !! k
          = Some {| timer_id := notification_id now; timer_delay := d |}) as Hk.
  { rewrite Hts. subst k. by rewrite list_lookup_middle. }
  assert (notifications s1
          = notifications s
              ++ [{| id := notification_id now; message := msg; options := opts |}])
    as Hns.
  { subst s1. apply notifications_add. }
  split_and!.
  - rewrite Hns. apply elem_of_app. right. by left.
  - exact Hk.
  - rewrite Hts, length_app. simpl. lia.
  - simpl. rewrite Hk. unfold live_ids. simpl.
    intros Hin. apply list_elem_of_fmap in Hin as (n & Hn & Hin).
    apply list_elem_of_filter in Hin as [Hne _]. by apply Hne.
  - simpl. rewrite Hk. simpl. rewrite Hts. subst k.
    rewrite delete_middle. by rewrite app_nil_r.
  - intros Hfresh. simpl. rewrite Hk. simpl. rewrite Hns, filter_app.
    rewrite filter_id_absent by done.
    rewrite filter_cons_False by (simpl; intros H; by apply H).
    by rewrite filter_nil, app_nil_r.
Qed.

Lemma expiry_removes_the_record_witness :
  let s := run initial [showSooner 1; showBanner 2] in
  let s1 := step s (showToast 3) in
  live_ids s1 = ["notification_1"; "notification_2"; "notification_3"]
  ∧ timers s1 !! 2
    = Some {| timer_id := "notification_3"; timer_delay := 3000%float |}
  ∧ notifications (step s1 (Fire 2)) = notifications s.
Proof.
  intros s s1. split; [reflexivity|].
  destruct (expiry_removes_the_record 3 "This is a toast notification!"
              (Some {| duration := Some 3000%float; variant := Some "toast";
                       type := Some "success"; position := Some "top-right" |})
              s 3000%float) as (_ & H2 & _ & _ & _ & H6).
  - reflexivity.
  - reflexivity.
  - split; [exact H2|]. apply H6.
    apply (bool_decide_unpack _). vm_compute. exact I.
Defined.

(** ** How calls compose *)

Lemma filter_id_comm (i j : string) (ns : list Notification) :
  filter (λ n, id n ≠ i) (filter (λ n, id n ≠ j) ns)
  = filter (λ n, id n ≠ j) (filter (λ n, id n ≠ i) ns).
Proof.
  induction ns as [|n ns IH]; [done|].
  destruct (decide (id n = i)) as [Ei|Ei], (decide (id n = j)) as [Ej|Ej].
  - rewrite (filter_cons_False (λ n, id n ≠ j) n) by (intros H; by apply H).
    rewrite (filter_cons_False (λ n, id n ≠ i) n) by (intros H; by apply H).
    exact IH.
  - rewrite (filter_cons_True (λ n, id n ≠ j) n) by done.
    rewrite !(filter_cons_False (λ n, id n ≠ i) n) by (intros H; by apply H).
    exact IH.
  - rewrite (filter_cons_True (λ n, id n ≠ i) n) by done.
    rewrite !(filter_cons_False (λ n, id n ≠ j) n) by (intros H; by apply H).
    exact IH.
  - rewrite (filter_cons_True (λ n, id n ≠ j) n ns) by done.
    rewrite (filter_cons_True (λ n, id n ≠ i) n ns) by done.
    rewrite (filter_cons_True (λ n, id n ≠ i) n) by done.
    rewrite (filter_cons_True (λ n, id n ≠ j) n) by done.
    by rewrite IH.
Qed.

(** X7. Removals can be made in any order, and a removal of another id can be
    moved across an [addNotification] call: the resulting set and pending
    timers are the same. *)
Theorem removals_commute (i j : string) (s : State) :
  removeNotification i (removeNotification j s)
  = removeNotification j (removeNotification i s)
  ∧ (∀ now msg opts,
       i ≠ notification_id now →
       removeNotification i (addNotification now msg opts s)
       = addNotification now msg opts (removeNotification i s)).
Proof.
  split.
  - unfold removeNotification. simpl. by rewrite filter_id_comm.
  - intros now msg opts Hi. unfold removeNotification, addNotification.
    destruct (arming_delay opts); simpl; f_equal;
      rewrite filter_app, filter_cons_True by (simpl; congruence); done.
Qed.

Lemma removals_commute_witness :
  let s := run initial [showToast 1; showSooner 2] in
  removeNotification "notification_1" (step s (showBanner 3))
  = step (removeNotification "notification_1" s) (showBanner 3).
Proof.
  intros s.
  destruct (removals_commute "notification_1" "notification_2" s) as [_ H].
  apply (H 3%Z). intros E. discriminate E.
Defined.

(** X8. A notification that is dismissed right after it was added, its id being
    fresh, leaves the set as it was before the call; the timer the call armed
    is not cancelled and stays pending, and when it fires later the set does
    not change. *)
Theorem add_then_dismiss
    (now : Z) (msg : string) (opts : option NotificationOptions) (s : State) :
  notification_id now ∉ live_ids s →
  let s2 := removeNotification (notification_id now)
              (addNotification now msg opts s) in
  notifications s2 = notifications s
  ∧ timers s2 = timers (addNotification now msg opts s)
  ∧ (∀ d, arming_delay opts = Some d →
          timers s2 !! length (timers s)
          = Some {| timer_id := notification_id now; timer_delay := d |}
          ∧ notifications (step s2 (Fire (length (timers s))))
            = notifications s).
Proof.
  intros Hfresh s2.
  assert (notifications s2 = notifications s) as Hns.
  { subst s2. rewrite notifications_remove, notifications_add, filter_app.
    rewrite filter_id_absent by done.
    rewrite filter_cons_False by (simpl; intros H; by apply H).
    by rewrite filter_nil, app_nil_r. }
  split_and!; [done|done|].
  intros d Hd.
  assert (timers s2 !! length (timers s)
          = Some {| timer_id := notification_id now; timer_delay := d |}) as Hk.
  { subst s2. simpl. rewrite timers_add, Hd. by rewrite list_lookup_middle. }
  split; [done|].
  cbn [step]. rewrite Hk. cbn [timer_id]. rewrite notifications_remove.
  cbn [notifications]. rewrite Hns. by apply filter_id_absent.
Qed.

Lemma add_then_dismiss_witness :
  let s := run initial [showSooner 1] in
  let s2 := removeNotification "notification_2" (step s (showToast 2)) in
  notifications s2 = notifications s
  ∧ length (timers s2) = 2
  ∧ notifications (step s2 (Fire 1)) = notifications s.
Proof.
  intros s s2.
  destruct (add_then_dismiss 2 "This is a toast notification!"
              (Some {| duration := Some 3000%float; variant := Some "toast";
                       type := Some "success"; position := Some "top-right" |})
              s) as (H1 & _ & H3).
  - apply (bool_decide_unpack _). vm_compute. exact I.
  - split; [exact H1|]. split; [reflexivity|].
    destruct (H3 3000%float) as [_ H4]; [reflexivity|exact H4].
Defined.

(** ** What a call changes on screen *)

Lemma toasts_snoc (ns : list Notification) (n : Notification) :
  toasts (ns ++ [n])
  = toasts ns ++ (if decide (has_variant "toast" n) then [n] else []).
Proof.
  unfold toasts. by rewrite filter_app.
Qed.

Lemma sooner_filter_snoc (ns : list Notification) (n : Notification) :
  filter (has_variant "sooner") (ns ++ [n])
  = filter (has_variant "sooner") ns
      ++ (if decide (has_variant "sooner" n) then [n] else []).
Proof.
  by rewrite filter_app.
Qed.

(** X9. A notification whose variant is neither [toast] nor [sooner] (a banner,
    an omitted variant, a call without options) is stored, and the provider
    renders exactly what it rendered before the call. *)
Theorem other_variants_are_stored_not_rendered
    (now : Z) (msg : string) (opts : option NotificationOptions) (s : State) :
  opts ≫= variant ≠ Some "toast" →
  opts ≫= variant ≠ Some "sooner" →
  NotificationProvider (addNotification now msg opts s) = NotificationProvider s
  ∧ notifications (addNotification now msg opts s)
    = notifications s
        ++ [{| id := notification_id now; message := msg; options := opts |}].
Proof.
  intros Ht Hs. split; [|apply notifications_add].
  unfold NotificationProvider, NotificationContainer.
  rewrite notifications_add. unfold sooners.
  rewrite toasts_snoc, sooner_filter_snoc.
  rewrite !decide_False by done. by rewrite !app_nil_r.
Qed.

Lemma other_variants_are_stored_not_rendered_witness :
  let s := run initial [showToast 1; showSooner 2] in
  NotificationProvider (addNotification 3 "plain" None s) = NotificationProvider s
  ∧ live_ids (addNotification 3 "plain" None s)
    = ["notification_1"; "notification_2"; "notification_3"].
Proof.
  intros s.
  destruct (other_variants_are_stored_not_rendered 3 "plain" None s)
    as [H1 H2].
  - discriminate.
  - discriminate.
  - split; [exact H1|]. unfold live_ids. rewrite H2. reflexivity.
Defined.

(** X10. A toast is on screen from the call on, whatever is there already: the
    rendering gains one wrapper after the existing ones, keyed by the new id,
    showing the message, positioned by the call's own position; the sooner
    stack is untouched.  There is no cap on toasts. *)
Theorem toast_is_rendered_from_the_call_on
    (now : Z) (msg : string) (opts : option NotificationOptions) (s : State) :
  opts ≫= variant = Some "toast" →
  ∃ r r' e,
    NotificationProvider s = Ok r
    ∧ NotificationProvider (addNotification now msg opts s) = Ok r'
    ∧ toast_elements r' = toast_elements r ++ [e]
    ∧ toast_key e = notification_id now
    ∧ item_span (toast_item e) = msg
    ∧ toast_className e
      = [ JsString "z-50";
          js_lookup positionClasses (or_default (opts ≫= position) "top-right") ]
    ∧ sooner_group r' = sooner_group r.
Proof.
  intros Hv. unfold NotificationProvider.
  rewrite !NotificationContainer_Some. do 3 eexists.
  split; [reflexivity|]. split; [reflexivity|]. simpl.
  rewrite notifications_add. unfold sooners.
  rewrite toasts_snoc, sooner_filter_snoc.
  rewrite decide_True by done.
  rewrite decide_False by (unfold has_variant; simpl; congruence).
  rewrite app_nil_r, fmap_app. simpl.
  split_and!; reflexivity.
Qed.

Lemma toast_is_rendered_from_the_call_on_witness :
  let s := run initial [showToast 1; showSooner 2] in
  ∃ r r',
    NotificationProvider s = Ok r
    ∧ NotificationProvider (step s (showToast 3)) = Ok r'
    ∧ rendered_toasts r'
      = rendered_toasts r
          ++ [("notification_3", "This is a toast notification!")].
Proof.
  intros s.
  destruct (toast_is_rendered_from_the_call_on 3 "This is a toast notification!"
              (Some {| duration := Some 3000%float; variant := Some "toast";
                       type := Some "success"; position := Some "top-right" |})
              s) as (r & r' & e & Hr & Hr' & Hts & Hk & Hm & _).
  - reflexivity.
  - exists r, r'. split; [exact Hr|]. split; [exact Hr'|].
    unfold rendered_toasts. rewrite Hts, fmap_app. simpl.
    by rewrite Hk, Hm.
Defined.

(** X11. A sooner notification joins the stack as its last child while fewer than
    five sooner notifications are in the set; from five on, the call changes
    nothing on screen.  Toasts are untouched either way. *)
Theorem sooner_joins_the_stack_below_five
    (now : Z) (msg : string) (opts : option NotificationOptions) (s : State) :
  opts ≫= variant = Some "sooner" →
  ∃ r r',
    NotificationProvider s = Ok r
    ∧ NotificationProvider (addNotification now msg opts s) = Ok r'
    ∧ toast_elements r' = toast_elements r
    ∧ (length (filter (has_variant "sooner") (notifications s)) < 5 →
       rendered_sooners r' = rendered_sooners r ++ [(notification_id now, msg)])
    ∧ (5 ≤ length (filter (has_variant "sooner") (notifications s)) →
       r' = r).
Proof.
  intros Hv. unfold NotificationProvider.
  destruct (NotificationContainer (Some dispatcher) (notifications s))
    as [r|] eqn:Hr; [|by rewrite NotificationContainer_Some in Hr].
  destruct (NotificationContainer (Some dispatcher)
              (notifications (addNotification now msg opts s)))
    as [r'|] eqn:Hr'; [|by rewrite NotificationContainer_Some in Hr'].
  exists r, r'. split; [done|]. split; [done|].
  pose proof (rendered_sooners_Some _ _ _ Hr) as Hview.
  pose proof (rendered_sooners_Some _ _ _ Hr') as Hview'.
  rewrite NotificationContainer_Some in Hr, Hr'.
  injection Hr as <-. injection Hr' as <-.
  rewrite notifications_add in *.
  assert (toasts (notifications s
                    ++ [{| id := notification_id now; message := msg;
                           options := opts |}])
          = toasts (notifications s)) as Htoasts.
  { rewrite toasts_snoc.
    rewrite decide_False by (unfold has_variant; simpl; congruence).
    by rewrite app_nil_r. }
  unfold sooners in *. rewrite sooner_filter_snoc in *.
  rewrite decide_True in * by done.
  split_and!.
  - simpl. by rewrite Htoasts.
  - intros Hlt. rewrite Hview, Hview'.
    rewrite !take_ge by (rewrite ?length_app; simpl; lia).
    by rewrite fmap_app.
  - intros Hge. rewrite Htoasts. by rewrite take_app_le by done.
Qed.

Lemma sooner_joins_the_stack_below_five_witness :
  let s := run initial [showSooner 1; showToast 2] in
  ∃ r r',
    NotificationProvider s = Ok r
    ∧ NotificationProvider (step s (showSooner 3)) = Ok r'
    ∧ rendered_sooners r'
      = rendered_sooners r
          ++ [("notification_3", "This is a sooner notification!")].
Proof.
  intros s.
  destruct (sooner_joins_the_stack_below_five 3 "This is a sooner notification!"
              (Some {| duration := Some 5000%float; variant := Some "sooner";
                       type := Some "warning"; position := Some "top-right" |})
              s) as (r & r' & Hr & Hr' & _ & Hlt & _).
  - reflexivity.
  - exists r, r'. split; [exact Hr|]. split; [exact Hr'|].
    apply Hlt. vm_compute. lia.
Defined.

(** ** Keys and the close button *)

Lemma rendered_keys_Some c ns r :
  NotificationContainer (Some c) ns = Ok r →
  toast_key <$> toast_elements r = id <$> toasts ns
  ∧ sooner_key <$> group_children (sooner_group r) = id <$> sooners ns.
Proof.
  rewrite NotificationContainer_Some. intros [= <-]. simpl. split.
  - by rewrite <- list_fmap_compose.
  - rewrite fmap_imap. by rewrite <- imap_const.
Qed.

Lemma toasts_sublist (ns : list Notification) : toasts ns `sublist_of` ns.
Proof. apply sublist_filter. Qed.

Lemma sooners_sublist (ns : list Notification) : sooners ns `sublist_of` ns.
Proof.
  unfold sooners. etrans; [apply sublist_take|apply sublist_filter].
Qed.

Lemma rendered_keys_live c ns r (k : string) :
  NotificationContainer (Some c) ns = Ok r →
  k ∈ rendered_keys r → k ∈ id <$> ns.
Proof.
  intros Hr. destruct (rendered_keys_Some c ns r Hr) as [Ht Hs].
  unfold rendered_keys. rewrite Ht, Hs, elem_of_app. intros [Hk|Hk].
  - eapply elem_of_sublist; [exact Hk|]. apply fmap_sublist, toasts_sublist.
  - eapply elem_of_sublist; [exact Hk|]. apply fmap_sublist, sooners_sublist.
Qed.

Lemma removed_key_not_rendered (k : string) (s0 : State) r' :
  NotificationProvider (removeNotification k s0) = Ok r' →
  k ∉ rendered_keys r'.
Proof.
  intros Hr' Hk. apply (rendered_keys_live _ _ _ k Hr') in Hk.
  apply list_elem_of_fmap in Hk as (n & Hn & Hin).
  rewrite notifications_remove in Hin.
  apply list_elem_of_filter in Hin as [Hne _]. by apply Hne.
Qed.

(** X12. The close button of every rendered element, toast or stacked, calls
    [removeNotification] with the key of that element: after a click no live
    record carries the key, and the next rendering holds no element with
    it. *)
Theorem close_button_dismisses_its_notification (s : State) (r : ContainerElement) :
  NotificationProvider s = Ok r →
  (∀ e, e ∈ toast_elements r →
     ∀ s0, item_onClick (toast_item e) s0 = removeNotification (toast_key e) s0
           ∧ (toast_key e ∉ live_ids (item_onClick (toast_item e) s0))
           ∧ ∀ r', NotificationProvider (item_onClick (toast_item e) s0) = Ok r' →
                   toast_key e ∉ rendered_keys r')
  ∧ (∀ e, e ∈ group_children (sooner_group r) →
     ∀ s0, item_onClick (sooner_item e) s0 = removeNotification (sooner_key e) s0
           ∧ (sooner_key e ∉ live_ids (item_onClick (sooner_item e) s0))
           ∧ ∀ r', NotificationProvider (item_onClick (sooner_item e) s0) = Ok r' →
                   sooner_key e ∉ rendered_keys r').
Proof.
  unfold NotificationProvider. rewrite NotificationContainer_Some.
  intros [= <-]. simpl.
  assert (∀ k s0,
            (k ∉ live_ids (removeNotification k s0))
            ∧ ∀ r', NotificationProvider (removeNotification k s0) = Ok r' →
                    k ∉ rendered_keys r') as Hgone.
  { intros k s0. split.
    - unfold live_ids. intros Hk.
      apply list_elem_of_fmap in Hk as (n & Hn & Hin).
      rewrite notifications_remove in Hin.
      apply list_elem_of_filter in Hin as [Hne _]. by apply Hne.
    - intros r'. apply removed_key_not_rendered. }
  split.
  - intros e He s0. apply list_elem_of_fmap in He as (n & -> & _). simpl.
    split; [done|]. apply Hgone.
  - intros e He s0.
    apply elem_of_lookup_imap in He as (k & n & -> & _). simpl.
    split; [done|]. apply Hgone.
Qed.

Lemma close_button_dismisses_its_notification_witness :
  let s := run initial [showToast 1; showSooner 2] in
  ∃ r e, NotificationProvider s = Ok r
         ∧ toast_elements r = [e]
         ∧ item_onClick (toast_item e) s = removeNotification "notification_1" s
         ∧ (toast_key e ∉ live_ids (item_onClick (toast_item e) s)).
Proof.
  intros s.
  destruct (NotificationProvider s) as [r|] eqn:Hr; [|discriminate Hr].
  pose proof (close_button_dismisses_its_notification s r Hr) as [Hclick _].
  unfold NotificationProvider in Hr. rewrite NotificationContainer_Some in Hr.
  injection Hr as <-. eexists _, _. split; [reflexivity|].
  split; [reflexivity|]. split; [reflexivity|].
  apply (Hclick _ (list_elem_of_here _ _) s).
Defined.

(** X13. With clock readings that differ from call to call, no two toast wrappers
    share a key and no two children of the sooner stack do. *)
Theorem distinct_clocks_give_distinct_keys (es : list Event) :
  NoDup (add_clocks es) →
  ∃ r, NotificationProvider (run initial es) = Ok r
       ∧ NoDup (toast_key <$> toast_elements r)
       ∧ NoDup (sooner_key <$> group_children (sooner_group r)).
Proof.
  intros Hclocks.
  destruct (distinct_clocks_run es initial []) as [Hnd _]; try done.
  { intros i Hi. by apply elem_of_nil in Hi. }
  { constructor. }
  unfold NotificationProvider, live_ids in *.
  destruct (NotificationContainer (Some dispatcher)
              (notifications (run initial es)))
    as [r|] eqn:Hr; [|by rewrite NotificationContainer_Some in Hr].
  exists r. split; [done|].
  destruct (rendered_keys_Some _ _ _ Hr) as [-> ->]. split.
  - eapply sublist_NoDup; [exact Hnd|]. apply fmap_sublist, toasts_sublist.
  - eapply sublist_NoDup; [exact Hnd|]. apply fmap_sublist, sooners_sublist.
Qed.

Lemma distinct_clocks_give_distinct_keys_witness :
  ∃ r, NotificationProvider
         (run initial [showToast 1; showToast 2; showSooner 3; showSooner 4])
       = Ok r
       ∧ NoDup (toast_key <$> toast_elements r)
       ∧ NoDup (sooner_key <$> group_children (sooner_group r)).
Proof.
  apply (distinct_clocks_give_distinct_keys
           [showToast 1; showToast 2; showSooner 3; showSooner 4]).
  apply (bool_decide_unpack _). vm_compute. exact I.
Defined.

(** ** Outside a provider *)

(** X14. [NotificationContainer] used on its own, without a provider above it,
    renders an array that holds no toast and no sooner notification (just the
    empty stack, anchored top-right), and throws the hook's error as soon as
    there is one to render. *)
Theorem container_outside_provider (ns : list Notification) :
  (toasts ns = [] ∧ sooners ns = [] →
   NotificationContainer None ns
   = Ok {| toast_elements := [];
           sooner_group :=
             {| group_className :=
                  [ JsString "z-50"; JsString "fixed top-5 right-5";
                    JsString "space-y-2" ];
                group_children := [] |} |})
  ∧ (toasts ns ≠ [] ∨ sooners ns ≠ [] →
     NotificationContainer None ns
     = Throw (Error "useNotification must be used within a NotificationProvider")).
Proof.
  unfold NotificationContainer. split.
  - intros [-> ->]. reflexivity.
  - intros Hsome. destruct (toasts ns) as [|t ts].
    + destruct Hsome as [Hsome|Hsome]; [done|].
      destruct (sooners ns) as [|n rest]; [done|]. reflexivity.
    + reflexivity.
Qed.

Lemma container_outside_provider_witness :
  NotificationContainer None (notifications (run initial [showBanner 1]))
  = Ok {| toast_elements := [];
          sooner_group :=
            {| group_className :=
                 [ JsString "z-50"; JsString "fixed top-5 right-5";
                   JsString "space-y-2" ];
               group_children := [] |} |}
  ∧ NotificationContainer None (notifications (run initial [showSooner 1]))
    = Throw (Error "useNotification must be used within a NotificationProvider").
Proof.
  split.
  - apply (container_outside_provider
             (notifications (run initial [showBanner 1]))).
    split; reflexivity.
  - apply (container_outside_provider
             (notifications (run initial [showSooner 1]))).
    right. discriminate.
Defined.

(** X15. [Example] calls the hook before it returns the provider it renders, so
    it throws unless another provider is already above it.  With one above,
    each of its three buttons calls that provider's [addNotification]: a
    click appends one record with the button's message and arms one timer of
    3000, 5000 or 7000 ms for it. *)
Theorem Example_needs_a_provider_above :
  Example None
  = Throw (Error "useNotification must be used within a NotificationProvider")
  ∧ ∃ e, Example (Some dispatcher) = Ok e
         ∧ ∀ now s,
             example_showToast e now s = step s (showToast now)
             ∧ example_showSooner e now s = step s (showSooner now)
             ∧ example_showBanner e now s = step s (showBanner now)
             ∧ timers (example_showToast e now s)
               = timers s ++ [{| timer_id := notification_id now;
                                 timer_delay := 3000 |}]
             ∧ timers (example_showSooner e now s)
               = timers s ++ [{| timer_id := notification_id now;
                                 timer_delay := 5000 |}]
             ∧ timers (example_showBanner e now s)
               = timers s ++ [{| timer_id := notification_id now;
                                 timer_delay := 7000 |}]
             ∧ live_ids (example_showToast e now s)
               = live_ids s ++ [notification_id now].
Proof.
  split; [reflexivity|]. eexists. split; [reflexivity|].
  intros now s. simpl. split_and!; try reflexivity.
  unfold live_ids. rewrite notifications_add, fmap_app. reflexivity.
Qed.
